(** * dm2xcod: the Python example script [examples/python_example/demo.py]

    The script imports the [dm2xcod] binding, reads a file as bytes, hands the
    bytes to [dm2xcod.convert_docx] and prints the returned text or writes it
    to a second path.  Its behaviour is all effects, so the embedding is a
    small state-and-exception monad over an explicit world (the command line,
    the importable module, the file system) and an explicit platform
    (standard output and the line separator), with a log of what the script
    did.  Module [Resolver] models the style resolver of the conversion
    engine, which the script reaches only through the binding.  The
    definitions come first, the properties after them. *)

From Stdlib Require Import ZArith String Ascii List.
From Stdlib.Strings Require Import Byte.
From stdpp Require Import base tactics option list strings gmap.

Local Open Scope Z_scope.
Local Open Scope string_scope.

(** ** Python values the script handles *)

(** [bytes]: what [f.read()] returns in mode ["rb"]. *)
Abbreviation bytes := (list byte).

#[export] Instance byte_eq_decision : EqDecision byte := Byte.byte_eq_dec.

(** [str.encode("utf-8")].  A Python [str] is kept as a Rocq [string] holding
    its UTF-8 bytes (the way the literals of this file are stored), so the
    encoder lists those bytes. *)
Definition encode_utf8 (s : string) : bytes := list_byte_of_string s.

(** An exception instance: the names of its class and of the bases of that
    class (the method resolution order), and what [str(e)] gives. *)
Record pyexc := PyExc { exc_mro : list string; exc_str : string }.

(** [isinstance(e, cls)], the test an [except cls] clause makes. *)
Definition isinstance (e : pyexc) (cls : string) : bool :=
  bool_decide (cls ∈ exc_mro e).

Definition Exception_mro : list string :=
  ["Exception"; "BaseException"; "object"].
Definition OSError_mro : list string := "OSError" :: Exception_mro.

(** Some classes of the standard library, for the sample worlds below.  The
    text of an [OSError] shows the file name the way [repr] writes it; for a
    name of letters, digits, dots and slashes that is the name between
    apostrophes, which is what these builders produce.  No property below
    depends on them: the errors of a file system are part of the world. *)
Definition FileNotFoundError (path : string) : pyexc :=
  PyExc ("FileNotFoundError" :: OSError_mro)
        ("[Errno 2] No such file or directory: '" +:+ path +:+ "'").
Definition PermissionError (path : string) : pyexc :=
  PyExc ("PermissionError" :: OSError_mro)
        ("[Errno 13] Permission denied: '" +:+ path +:+ "'").
Definition IsADirectoryError (path : string) : pyexc :=
  PyExc ("IsADirectoryError" :: OSError_mro)
        ("[Errno 21] Is a directory: '" +:+ path +:+ "'").
Definition NotADirectoryError (path : string) : pyexc :=
  PyExc ("NotADirectoryError" :: OSError_mro)
        ("[Errno 20] Not a directory: '" +:+ path +:+ "'").
Definition IndexError : pyexc :=
  PyExc ("IndexError" :: "LookupError" :: Exception_mro)
        "list index out of range".

Definition TypeError_open_None : pyexc :=
  PyExc ("TypeError" :: Exception_mro)
        "expected str, bytes or os.PathLike object, not NoneType".

(** What a [raise] carries: [sys.exit(code)] raises [SystemExit], which is
    neither an [ImportError] nor an [Exception]; everything else the script
    can meet is an error object.  An error object stands for an exception
    outside the classes [SystemExit] and [KeyboardInterrupt], which the
    interpreter does not report as errors (see [plain_error]). *)
Inductive raised :=
| SystemExit (code : Z)
| Error (e : pyexc).

(** ** The world of one invocation *)

(** The file system, as the script meets it: what opening a path for reading
    and reading it gives, whether a path can be opened for writing, whether
    the bytes written to it arrive (and, if not, which bytes the file is left
    with), and which other names denote the same file.  The errors, with
    their texts, are the operating system's. *)
Record filesystem := FileSystem {
  fs_read : string → pyexc + bytes;
  fs_open_w : string → option pyexc;
  fs_write : string → bytes → option (pyexc * bytes);
  fs_alias : string → string → bool
}.

(** The file at [path], and at every other name of it, now holds [content]. *)
Definition fs_put (path : string) (content : bytes) (fs : filesystem)
  : filesystem :=
  FileSystem
    (λ q, if bool_decide (q = path) || fs_alias fs path q
          then inr content else fs_read fs q)
    (fs_open_w fs) (fs_write fs) (fs_alias fs).

(** The platform of a run: the line separator of text files, what standard
    output does with a text ([None]: it takes it; otherwise the exception the
    write raises, as an ASCII stream does for a text it cannot encode), and
    whether the flush at exit succeeds. *)
Record platform := Platform {
  os_linesep : string;
  stdout_refuses : string → option pyexc;
  stdout_flushes : bool
}.

(** [dm2xcod.convert_docx]: bytes in, text out, or an exception. *)
Definition convert_fn := bytes → pyexc + string.

(** The interpreter always supplies the script name as [sys.argv[0]], so the
    command line is that name and the arguments after it. *)
Record world := World {
  w_script : string;            (* sys.argv[0] *)
  w_args : list string;         (* sys.argv[1:] *)
  w_dm2xcod : pyexc + convert_fn; (* what [import dm2xcod] does *)
  w_fs : filesystem             (* the files before the run *)
}.

Definition sys_argv (w : world) : list string := w_script w :: w_args w.

Inductive open_mode := ReadBinary | WriteTextUtf8.

(** What the script did, in order. *)
Inductive event :=
| EvImport (name : string)
| EvPrint (text : string)
| EvOpen (path : string) (mode : open_mode)
| EvRead (path : string)
| EvWrite (path : string) (text : string)
| EvConvertDocx (data : bytes).

Record state := State {
  st_fs : filesystem;
  st_log : list event;
  st_platform : platform
}.

(** ** The monad: state and Python exceptions *)

Inductive outcome (A : Type) :=
| Return (a : A)
| Raise (r : raised).
Arguments Return {A} a.
Arguments Raise {A} r.

Definition M (A : Type) : Type := state → outcome A * state.

#[export] Instance M_ret : MRet M := λ A a s, (Return a, s).
#[export] Instance M_bind : MBind M := λ A B f m s,
  match m s with
  | (Return a, s') => f a s'
  | (Raise r, s') => (Raise r, s')
  end.

Definition raise {A} (r : raised) : M A := λ s, (Raise r, s).
Definition emit (ev : event) : M unit :=
  λ s, (Return tt, State (st_fs s) (st_log s ++ [ev]) (st_platform s)).
Definition get_fs : M filesystem := λ s, (Return (st_fs s), s).
Definition put_fs (fs : filesystem) : M unit :=
  λ s, (Return tt, State fs (st_log s) (st_platform s)).
Definition get_platform : M platform := λ s, (Return (st_platform s), s).

(** [try: body / except cls as e: handler e]. *)
Definition try_except {A} (body : M A) (cls : string) (handler : pyexc → M A)
  : M A := λ s,
  match body s with
  | (Raise (Error e), s') =>
      if isinstance e cls then handler e s' else (Raise (Error e), s')
  | r => r
  end.

(** ** The built-ins the script calls *)

(** [print(text)]: the text and a line feed go to standard output (see
    [stdout_of]), unless standard output refuses the text. *)
Definition print (text : string) : M unit :=
  p ← get_platform;
  match stdout_refuses p text with
  | Some e => raise (Error e)
  | None => emit (EvPrint text)
  end.

(** [sys.exit(code)]. *)
Definition sys_exit {A} (code : Z) : M A := raise (SystemExit code).

(** [len(lst)]. *)
Definition len (lst : list string) : Z := Z.of_nat (length lst).

(** [lst[i]] for a literal index. *)
Definition getitem (lst : list string) (i : nat) : M string :=
  match lst !! i with
  | Some x => mret x
  | None => raise (Error IndexError)
  end.

(** [import dm2xcod]. *)
Definition import_dm2xcod (w : world) : M convert_fn :=
  emit (EvImport "dm2xcod");;
  match w_dm2xcod w with
  | inl e => raise (Error e)
  | inr convert_docx => mret convert_docx
  end.

(** A file object: the path it was opened on and the mode. *)
Record file := File { f_path : string; f_mode : open_mode }.

Definition LF : string := String "010" "".

(** Text mode with the default [newline=None] rewrites every line feed
    written to the file as the line separator of the platform. *)
Fixpoint translate_newlines (sep : string) (s : string) : string :=
  match s with
  | "" => ""
  | String c s' =>
      (if Ascii.eqb c "010" then sep else String c "")
        +:+ translate_newlines sep s'
  end.

(** [open(path, mode)]: mode ["rb"], or mode ["w"] with [encoding="utf-8"],
    which creates the file or empties it. *)
Definition py_open (path : string) (mode : open_mode) : M file :=
  emit (EvOpen path mode);;
  fs ← get_fs;
  match mode with
  | ReadBinary =>
      match fs_read fs path with
      | inl e => raise (Error e)
      | inr _ => mret (File path mode)
      end
  | WriteTextUtf8 =>
      match fs_open_w fs path with
      | Some e => raise (Error e)
      | None => put_fs (fs_put path [] fs);; mret (File path mode)
      end
  end.

(** [f.read()]. *)
Definition f_read (f : file) : M bytes :=
  emit (EvRead (f_path f));;
  fs ← get_fs;
  match fs_read fs (f_path f) with
  | inr content => mret content
  | inl e => raise (Error e)
  end.

(** [f.write(text)] on a text file: the text, with its line feeds
    translated, is encoded and appended; when the bytes do not arrive, the
    file is left with what did and the error is raised (by [write] or by the
    close that ends the [with] block). *)
Definition f_write (f : file) (text : string) : M unit :=
  emit (EvWrite (f_path f) text);;
  fs ← get_fs;
  p ← get_platform;
  match fs_read fs (f_path f) with
  | inr content =>
      let data := encode_utf8 (translate_newlines (os_linesep p) text) in
      match fs_write fs (f_path f) data with
      | Some (e, kept) =>
          put_fs (fs_put (f_path f) (content ++ kept) fs);; raise (Error e)
      | None => put_fs (fs_put (f_path f) (content ++ data) fs)
      end
  | inl e => raise (Error e)
  end.

(** [with open(path, mode) as f: body f].  Leaving the block closes the file;
    an error of the close is the one [f_write] raises. *)
Definition with_open {A} (path : string) (mode : open_mode) (body : file → M A)
  : M A :=
  f ← py_open path mode; body f.

(** [dm2xcod.convert_docx(data)]. *)
Definition call_convert_docx (convert_docx : convert_fn) (data : bytes)
  : M string :=
  emit (EvConvertDocx data);;
  match convert_docx data with
  | inl e => raise (Error e)
  | inr markdown => mret markdown
  end.

(** Truth value of [sys.argv[2] if len(sys.argv) > 2 else None]: [None] and
    the empty string are false. *)
Definition truthy (o : option string) : bool :=
  match o with
  | Some s => negb (bool_decide (s = ""))
  | None => false
  end.

(** ** The script *)

Definition msg_not_installed : string :=
  "❌ dm2xcod not installed. Install with: pip install dm2xcod".

Definition main (w : world) : M unit :=
  dm2xcod ← try_except (import_dm2xcod w) "ImportError"
              (λ _, print msg_not_installed;; sys_exit 1);
  (if (len (sys_argv w) <? 2)%Z then
     argv0 ← getitem (sys_argv w) 0;
     print ("Usage: " +:+ argv0 +:+ " <input.docx> [output.md]");;
     sys_exit 1
   else mret tt);;
  input_file ← getitem (sys_argv w) 1;
  output_file ← (if (len (sys_argv w) >? 2)%Z
                 then arg ← getitem (sys_argv w) 2; mret (Some arg)
                 else mret (None : option string));
  try_except
    (print ("Reading '" +:+ input_file +:+ "' as bytes...");;
     data ← with_open input_file ReadBinary (λ f, f_read f);
     markdown ← call_convert_docx dm2xcod data;
     if truthy output_file then
       match output_file with
       | Some out =>
           with_open out WriteTextUtf8 (λ f, f_write f markdown);;
           print ("✅ Converted '" +:+ input_file +:+ "' to '" +:+ out +:+ "'")
       | None => raise (Error TypeError_open_None)
       end
     else print markdown)
    "Exception"
    (λ e, print ("❌ Error: " +:+ exc_str e);; sys_exit 1).

(** ** Running the script: [if __name__ == "__main__": main()] *)

(** Standard output: every printed text followed by a line feed. *)
Fixpoint stdout_of (log : list event) : string :=
  match log with
  | [] => ""
  | EvPrint text :: log' => text +:+ LF +:+ stdout_of log'
  | _ :: log' => stdout_of log'
  end.

(** The exit status the interpreter gives: 0 when [main] returns, the code of
    a [SystemExit], and 1 after an error nobody caught. *)
Definition exit_status {A} (o : outcome A) : Z :=
  match o with
  | Return _ => 0
  | Raise (SystemExit code) => code
  | Raise (Error _) => 1
  end.

(** At exit the interpreter flushes standard output; when text is pending
    and the flush fails, the status is 120 whatever [main] did. *)
Definition final_status {A} (p : platform) (o : outcome A) (out : string) : Z :=
  if stdout_flushes p || bool_decide (out = "") then exit_status o else 120.

(** The exception the interpreter reports with a traceback on standard
    error, if [main] let one escape. *)
Definition traceback {A} (o : outcome A) : option pyexc :=
  match o with
  | Raise (Error e) => Some e
  | _ => None
  end.

(** [r_stdout] is what the script printed; [r_fs] the files after the run. *)
Record result := Result {
  r_exit : Z;
  r_stdout : string;
  r_traceback : option pyexc;
  r_fs : filesystem;
  r_log : list event
}.

Definition run_in (p : platform) (w : world) : result :=
  let '(o, s) := main w (State (w_fs w) [] p) in
  Result (final_status p o (stdout_of (st_log s))) (stdout_of (st_log s))
         (traceback o) (st_fs s) (st_log s).

(** A POSIX platform whose standard output is a UTF-8 stream that takes
    every text. *)
Definition posix_utf8 : platform := Platform LF (λ _, None) true.

Definition run (w : world) : result := run_in posix_utf8 w.

(** ** Reading the result of a run *)

(** The outcome of [with open(path, "rb") as f: data = f.read()] on a file
    system: the bytes of the file, or the error raised. *)
Definition read_file (fs : filesystem) (path : string) : pyexc + bytes :=
  fs_read fs path.

(** The bytes [f.write(text)] sends to a text file on a platform. *)
Definition written_bytes (p : platform) (text : string) : bytes :=
  encode_utf8 (translate_newlines (os_linesep p) text).

(** Lines as [print] sends them. *)
Definition unlines (texts : list string) : string :=
  stdout_of (EvPrint <$> texts).

(** The texts of the script's f-strings. *)
Definition usage_line (argv0 : string) : string :=
  "Usage: " +:+ argv0 +:+ " <input.docx> [output.md]".
Definition reading_line (input_file : string) : string :=
  "Reading '" +:+ input_file +:+ "' as bytes...".
Definition converted_line (input_file output_file : string) : string :=
  "✅ Converted '" +:+ input_file +:+ "' to '" +:+ output_file +:+ "'".
Definition error_line (e : pyexc) : string := "❌ Error: " +:+ exc_str e.

(** What [except Exception as e: print(...); sys.exit(1)] makes of an error
    [e] that the [try] block raised in state [s]: an instance of [Exception]
    is reported and turned into [SystemExit(1)], unless standard output
    refuses the report; anything else goes on to the interpreter. *)
Definition caught (e : pyexc) (s : state) : outcome unit * state :=
  if isinstance e "Exception" then
    match stdout_refuses (st_platform s) (error_line e) with
    | None =>
        (Raise (SystemExit 1),
         State (st_fs s) (st_log s ++ [EvPrint (error_line e)])
               (st_platform s))
    | Some e' => (Raise (Error e'), s)
    end
  else (Raise (Error e), s).

(** The arguments [convert_docx] was called with, in order. *)
Fixpoint conversions (log : list event) : list bytes :=
  match log with
  | [] => []
  | EvConvertDocx data :: log' => data :: conversions log'
  | _ :: log' => conversions log'
  end.


(** The operations that change a file: [open] for writing, and [write]. *)
Definition is_write_event (ev : event) : bool :=
  match ev with
  | EvOpen _ WriteTextUtf8 | EvWrite _ _ => true
  | _ => false
  end.
Definition write_events (log : list event) : list event :=
  List.filter is_write_event log.

(** An error raised inside the [try] block of an invocation that got past
    the import, the argument check and the progress line: while reading the
    input file, while converting, or while opening or writing the output. *)
Inductive try_error (p : platform) (w : world) (inp : string)
  : pyexc → Prop :=
| error_reading convert_docx rest e :
    w_dm2xcod w = inr convert_docx → w_args w = inp :: rest →
    read_file (w_fs w) inp = inl e →
    try_error p w inp e
| error_converting convert_docx rest data e :
    w_dm2xcod w = inr convert_docx → w_args w = inp :: rest →
    read_file (w_fs w) inp = inr data →
    convert_docx data = inl e →
    try_error p w inp e
| error_opening convert_docx out rest data markdown e :
    w_dm2xcod w = inr convert_docx → w_args w = inp :: out :: rest →
    read_file (w_fs w) inp = inr data →
    convert_docx data = inr markdown →
    out ≠ "" →
    fs_open_w (w_fs w) out = Some e →
    try_error p w inp e
| error_writing convert_docx out rest data markdown e kept :
    w_dm2xcod w = inr convert_docx → w_args w = inp :: out :: rest →
    read_file (w_fs w) inp = inr data →
    convert_docx data = inr markdown →
    out ≠ "" →
    fs_open_w (w_fs w) out = None →
    fs_write (w_fs w) out (written_bytes p markdown) = Some (e, kept) →
    try_error p w inp e.




(** Two imports of [dm2xcod] behave alike: the same exception, or conversion
    functions that agree on every input. *)
Definition same_module (m1 m2 : pyexc + convert_fn) : Prop :=
  match m1, m2 with
  | inl e1, inl e2 => e1 = e2
  | inr f1, inr f2 => ∀ data, f1 data = f2 data
  | _, _ => False
  end.

(** ** Sample worlds *)

Definition docx : bytes := list_byte_of_string "PK-minimal-docx".
Definition junk : bytes := list_byte_of_string "not a zip archive".
Definition sample_markdown : string := "# Title" +:+ LF +:+ "body".

Definition ValueError (msg : string) : pyexc :=
  PyExc ("ValueError" :: Exception_mro) msg.
Definition ModuleNotFoundError (name : string) : pyexc :=
  PyExc ("ModuleNotFoundError" :: "ImportError" :: Exception_mro)
        ("No module named '" +:+ name +:+ "'").
(** The exception a panic of the Rust side surfaces as; its class derives
    from [BaseException] only. *)
Definition PanicException (msg : string) : pyexc :=
  PyExc ["PanicException"; "BaseException"; "object"] msg.

Definition sample_convert : convert_fn := λ data,
  if bool_decide (data = docx) then inr sample_markdown
  else if bool_decide (data = []) then inl (PanicException "empty input")
  else inl (ValueError "Container error: malformed archive").

(** The exception of a text stream that cannot encode a text. *)
Definition UnicodeEncodeError (codec : string) : pyexc :=
  PyExc ("UnicodeEncodeError" :: "UnicodeError" :: "ValueError" :: Exception_mro)
        ("'" +:+ codec +:+ "' codec can't encode character").
Definition RuntimeError (msg : string) : pyexc :=
  PyExc ("RuntimeError" :: Exception_mro) msg.

(** An entry of a directory listing. *)
Inductive node :=
| RegFile (content : bytes)
| Directory
| Forbidden.

(** The directory part of a path: what stands before its last slash. *)
Fixpoint dirname (path : string) : option string :=
  match path with
  | "" => None
  | String c rest =>
      match dirname rest with
      | Some dir => Some (String c dir)
      | None => if Ascii.eqb c "/" then Some "" else None
      end
  end.

(** The error for a name that is not listed: it lies below a regular file,
    below a forbidden directory, or simply does not exist. *)
Definition absent (entries : gmap string node) (path : string) : pyexc :=
  match dirname path with
  | Some dir =>
      match entries !! dir with
      | Some (RegFile _) => NotADirectoryError path
      | Some Forbidden => PermissionError path
      | _ => FileNotFoundError path
      end
  | None => FileNotFoundError path
  end.

(** A working directory with the given entries, no links, short names, and
    a disk that takes every write.  A name that is not listed cannot be
    read; it can be created in the working directory itself and in a listed
    directory, nowhere else. *)
Definition listing (entries : gmap string node) : filesystem :=
  FileSystem
    (λ path,
       if bool_decide (path = "") then inl (FileNotFoundError path)
       else match entries !! path with
            | Some (RegFile content) => inr content
            | Some Directory => inl (IsADirectoryError path)
            | Some Forbidden => inl (PermissionError path)
            | None => inl (absent entries path)
            end)
    (λ path,
       if bool_decide (path = "") then Some (FileNotFoundError path)
       else match entries !! path with
            | Some (RegFile _) => None
            | Some Directory => Some (IsADirectoryError path)
            | Some Forbidden => Some (PermissionError path)
            | None =>
                match dirname path with
                | None => None
                | Some dir =>
                    match entries !! dir with
                    | Some Directory => None
                    | _ => Some (absent entries path)
                    end
                end
            end)
    (λ _ _, None)
    (λ _ _, false).

Definition sample_entries : gmap string node :=
  {[ "in.docx" := RegFile docx;
     "broken.docx" := RegFile junk;
     "empty.docx" := RegFile [];
     "reports" := Directory;
     "secret.docx" := Forbidden ]}.

Definition sample_fs : filesystem := listing sample_entries.
Definition blocked_fs : filesystem :=
  listing (<["out.md" := Directory]> sample_entries).
Definition crowded_fs : filesystem :=
  listing (<["notes.txt" := RegFile junk]> sample_entries).

(** The file system with one more name, [name], for the file at [target]:
    another spelling of its path, or a link to it. *)
Definition with_link (name target : string) (fs : filesystem) : filesystem :=
  let real := λ q : string, if bool_decide (q = name) then target else q in
  FileSystem (λ q, fs_read fs (real q))
             (λ q, fs_open_w fs (real q))
             (λ q, fs_write fs (real q))
             (λ a b, bool_decide (real a = real b) ||
                     fs_alias fs (real a) (real b)).
Definition linked_fs : filesystem := with_link "./in.docx" "in.docx" sample_fs.

Definition invoke_on (fs : filesystem) (args : list string) : world :=
  World "demo.py" args (inr sample_convert) fs.
Definition invoke (args : list string) : world := invoke_on sample_fs args.
Definition invoke_uninstalled (args : list string) : world :=
  World "demo.py" args (inl (ModuleNotFoundError "dm2xcod")) sample_fs.
Definition invoke_broken_module (args : list string) : world :=
  World "demo.py" args (inl (RuntimeError "init failed")) sample_fs.

(** A stream that takes ASCII texts only. *)
Definition is_ascii (text : string) : bool :=
  forallb (λ c, Nat.ltb (nat_of_ascii c) 128) (list_ascii_of_string text).
Definition ascii_stdout : platform :=
  Platform LF
           (λ text, if is_ascii text then None
                    else Some (UnicodeEncodeError "ascii"))
           true.
(** A platform whose line separator is carriage return and line feed. *)
Definition CRLF : string := String "013" LF.
Definition crlf_platform : platform := Platform CRLF (λ _, None) true.

(** ** The style resolver of the conversion engine *)

Module Resolver.

(** Modelled from the spec: the Style/Format Resolver (section 4.3) and the
    entities it works on (section 3).  The engine behind [convert_docx] is not
    among the sources, which hold the example script only. *)
Inductive StyleType := ParagraphStyle | CharacterStyle | TableStyle.

(** Modelled from the spec: the formatting attributes of a style (bold,
    italic, font size, outline or heading level); an attribute a style does
    not set is [None]. *)
Record Attributes := {
  bold : option bool;
  italic : option bool;
  font_size : option N;
  outline_level : option N
}.

Definition no_attributes : Attributes :=
  {| bold := None; italic := None; font_size := None; outline_level := None |}.

(** Modelled from the spec: "child attributes override ancestor attributes",
    "direct formatting overrides style-derived formatting". *)
Definition override (child ancestor : Attributes) : Attributes :=
  {| bold := bold child ∪ bold ancestor;
     italic := italic child ∪ italic ancestor;
     font_size := font_size child ∪ font_size ancestor;
     outline_level := outline_level child ∪ outline_level ancestor |}.

(** Modelled from the spec: StyleDefinition, with its optional parent
    identifier. *)
Record StyleDefinition := {
  identifier : string;
  name : string;
  type : StyleType;
  parent : option string;
  attributes : Attributes
}.

(** Modelled from the spec: NumberingDefinition (bullet glyph or ordinal
    style, indent level). *)
Record NumberingDefinition := {
  ordered : bool;
  indent_level : N
}.

(** Modelled from the spec: the error taxonomy of the resolver (section 7).
    A missing reference degrades and is never returned. *)
Inductive ResolveError :=
| CyclicStyle (offending : string)
| MissingReference (reference : string).

(** Modelled from the spec: DocumentNode, a tagged variant whose nodes own an
    ordered sequence of children. *)
Inductive NodeKind :=
| Paragraph (style : option string) (numbering : option string)
| Run (direct : Attributes) (text : string)
| Table
| TableRow
| TableCell
| Hyperlink (relationship : string)
| Image (relationship : string) (alt : string)
| LineBreak.

#[warnings="-register-all"]
Inductive DocumentNode :=
| Node (kind : NodeKind) (children : list DocumentNode).

(** Induction on a tree with the hypothesis for every child. *)
Fixpoint node_ind (P : DocumentNode → Prop)
    (step : ∀ kind children, Forall P children → P (Node kind children))
    (node : DocumentNode) : P node :=
  match node with
  | Node kind children =>
      step kind children
        ((fix all (l : list DocumentNode) : Forall P l :=
            match l with
            | [] => @List.Forall_nil _ P
            | c :: l' =>
                @List.Forall_cons _ P c l' (node_ind P step c) (all l')
            end) children)
  end.

(** Modelled from the spec: ResolvedFormat, the flat formatting of a node:
    heading depth clamped to 1..6, list kind and nesting level. *)
Record ResolvedFormat := {
  rf_bold : bool;
  rf_italic : bool;
  rf_heading : option N;
  rf_list : option (bool * N)
}.

#[warnings="-register-all"]
Inductive ResolvedNode :=
| RNode (kind : NodeKind) (format : ResolvedFormat)
        (children : list ResolvedNode).

(** A resolver result: [None] only if a walk ran out of steps. *)
Definition R (A : Type) : Type := option (ResolveError + A).

Definition R_bind {A B} (m : R A) (f : A → R B) : R B :=
  match m with
  | None => None
  | Some (inl err) => Some (inl err)
  | Some (inr a) => f a
  end.

(** Modelled from the spec: one resolution walk up the parent chain, with a
    visited-set; on a revisit it fails with [CyclicStyle] naming the
    identifier met again.  [acc] holds the attributes of the styles walked so
    far, which the ancestors only complete. *)
Fixpoint walk (fuel : nat) (styles : gmap string StyleDefinition)
    (visited : gset string) (id : string) (acc : Attributes) : R Attributes :=
  match fuel with
  | O => None
  | S fuel' =>
      if decide (id ∈ visited) then Some (inl (CyclicStyle id))
      else match styles !! id with
           | None => Some (inr acc)
           | Some sd =>
               let acc' := override acc (attributes sd) in
               match parent sd with
               | None => Some (inr acc')
               | Some p => walk fuel' styles ({[id]} ∪ visited) p acc'
               end
           end
  end.

(** A walk visits each style at most once before it stops, so one step more
    than there are styles is enough. *)
Definition resolve_style (styles : gmap string StyleDefinition)
    (id : string) (direct : Attributes) : R Attributes :=
  walk (S (size styles)) styles ∅ id direct.

Definition clamp_heading (level : N) : N := N.max 1 (N.min 6 level).

Definition flatten (numbering : gmap string NumberingDefinition)
    (kind : NodeKind) (attrs : Attributes) : ResolvedFormat :=
  {| rf_bold := default false (bold attrs);
     rf_italic := default false (italic attrs);
     rf_heading :=
       match kind with
       | Paragraph _ _ => clamp_heading <$> outline_level attrs
       | _ => None
       end;
     rf_list :=
       match kind with
       | Paragraph _ (Some ref) =>
           (λ nd, (ordered nd, indent_level nd)) <$> numbering !! ref
       | _ => None
       end |}.

(** The attributes of a node: a paragraph walks the chain of its style, a run
    lays its direct formatting over what it inherits. *)
Definition node_attributes (styles : gmap string StyleDefinition)
    (inherited : Attributes) (kind : NodeKind) : R Attributes :=
  match kind with
  | Paragraph (Some s) _ => resolve_style styles s no_attributes
  | Paragraph None _ => Some (inr no_attributes)
  | Run direct _ => Some (inr (override direct inherited))
  | _ => Some (inr inherited)
  end.

(** The first failure among the results for a sequence of children. *)
Definition R_mapM {A B} (f : A → R B) : list A → R (list B) :=
  fix go l :=
    match l with
    | [] => Some (inr [])
    | a :: l' =>
        R_bind (f a) (λ b, R_bind (go l') (λ bs, Some (inr (b :: bs))))
    end.

(** Modelled from the spec: [resolve(tree, styles, numbering)], which fails
    with the first error of a walk. *)
Fixpoint resolve_node (styles : gmap string StyleDefinition)
    (numbering : gmap string NumberingDefinition)
    (inherited : Attributes) (node : DocumentNode) : R ResolvedNode :=
  match node with
  | Node kind children =>
      R_bind (node_attributes styles inherited kind) (λ attrs,
      R_bind (R_mapM (resolve_node styles numbering attrs) children)
             (λ rchildren,
      Some (inr (RNode kind (flatten numbering kind attrs) rchildren))))
  end.

Definition resolve (tree : DocumentNode)
    (styles : gmap string StyleDefinition)
    (numbering : gmap string NumberingDefinition) : R ResolvedNode :=
  resolve_node styles numbering no_attributes tree.

(** [b] is the parent of [a] in the table. *)
Definition parent_of (styles : gmap string StyleDefinition) (a b : string)
  : Prop :=
  ∃ sd, styles !! a = Some sd ∧ parent sd = Some b.

(** A paragraph of the tree is styled [s]. *)
Inductive uses_style : DocumentNode → string → Prop :=
| uses_here s numbering children :
    uses_style (Node (Paragraph (Some s) numbering) children) s
| uses_below kind children child s :
    child ∈ children → uses_style child s →
    uses_style (Node kind children) s.

(** The table of the spec's example: A's parent is B and B's parent is A;
    C hangs below A. *)
Definition style (id : string) (p : option string) : StyleDefinition :=
  {| identifier := id; name := id; type := ParagraphStyle; parent := p;
     attributes := no_attributes |}.

Definition cyclic_table : gmap string StyleDefinition :=
  {[ "A" := style "A" (Some "B");
     "B" := style "B" (Some "A");
     "C" := style "C" (Some "A");
     "Normal" := style "Normal" None ]}.

Definition sample_tree : DocumentNode :=
  Node Table
    [Node TableRow
       [Node TableCell
          [Node (Paragraph (Some "Normal") None)
             [Node (Run no_attributes "plain") []];
           Node (Paragraph (Some "C") None)
             [Node (Run no_attributes "styled") []]]]].

(** A document whose only paragraph has the style Normal. *)
Definition plain_tree : DocumentNode :=
  Node (Paragraph (Some "Normal") None)
    [Node (Run no_attributes "plain") []].

End Resolver.

(** * Properties of the script *)

(** ** Executing [main] *)

Local Arguments fs_put : simpl never.

Ltac unfold_monad :=
  unfold try_except, import_dm2xcod, call_convert_docx, with_open, py_open,
    f_read, f_write, print, sys_exit, getitem, emit, raise, get_fs, put_fs,
    get_platform, mbind, M_bind, mret, M_ret.

Ltac unfold_texts :=
  unfold caught, read_file, written_bytes, usage_line, reading_line,
    converted_line, error_line, msg_not_installed in *.

Lemma fs_read_put path content fs :
  fs_read (fs_put path content fs) path = inr content.
Proof. unfold fs_put. cbn. by rewrite bool_decide_true. Qed.

Lemma fs_open_w_put path content fs q :
  fs_open_w (fs_put path content fs) q = fs_open_w fs q.
Proof. done. Qed.

Lemma fs_write_put path content fs q :
  fs_write (fs_put path content fs) q = fs_write fs q.
Proof. done. Qed.

Lemma translate_newlines_LF s : translate_newlines LF s = s.
Proof.
  induction s as [|c s IH]; [done|].
  cbn [translate_newlines]. rewrite IH.
  destruct (Ascii.eqb c "010") eqn:E; [|done].
  apply Ascii.eqb_eq in E. by subst.
Qed.

(** With carriage return and line feed as separator the translation is
    visible. *)
Example translate_newlines_crlf :
  translate_newlines CRLF ("a" +:+ LF +:+ "b") = "a" +:+ CRLF +:+ "b".
Proof. reflexivity. Qed.

Lemma len_two_more (a b : string) l : (len (a :: b :: l) <? 2)%Z = false.
Proof. unfold len. cbn [length]. apply Z.ltb_ge. lia. Qed.

Lemma len_two (a b : string) : (len [a; b] >? 2)%Z = false.
Proof. done. Qed.

Lemma len_three_more (a b c : string) l :
  (len (a :: b :: c :: l) >? 2)%Z = true.
Proof. unfold len. cbn [length]. apply Z.gtb_lt. lia. Qed.

Lemma truthy_head_inv rest :
  truthy (head rest) = true → ∃ out rest', rest = out :: rest' ∧ out ≠ "".
Proof.
  destruct rest as [|out rest']; [done|]. cbn.
  case_bool_decide; [done|]. eauto.
Qed.

Ltac reduce :=
  cbn in *; cbn [st_platform st_fs st_log f_path f_mode] in *;
  rewrite ?fs_read_put, ?fs_open_w_put, ?fs_write_put.

(** Rewrites with the hypotheses that say what the world answers. *)
Ltac use_hyps :=
  reduce;
  repeat (match goal with
          | H : ?x = _ |- context [?x] => rewrite H
          end; reduce).

Ltac enter_main :=
  unfold main, sys_argv; unfold_monad; unfold_texts;
  use_hyps; rewrite ?len_two_more, ?len_two, ?len_three_more; use_hyps.

(** Splits on what the world answers next, as long as something is asked. *)
Ltac split_cases :=
  use_hyps;
  repeat (match goal with
          | |- context [match ?x with _ => _ end] =>
              lazymatch x with
              | context [match _ with _ => _ end] => fail
              | _ => tryif is_var x then destruct x else destruct x eqn:?
              end
          end; use_hyps);
  simplify_eq; try done.

(** The import raises: the handler of [except ImportError] runs, or the
    exception leaves [main]. *)
Lemma main_import_raises p w e fs :
  w_dm2xcod w = inl e →
  main w (State fs [] p) =
  if isinstance e "ImportError"
  then match stdout_refuses p msg_not_installed with
       | None =>
           (Raise (SystemExit 1),
            State fs [EvImport "dm2xcod"; EvPrint msg_not_installed] p)
       | Some e' => (Raise (Error e'), State fs [EvImport "dm2xcod"] p)
       end
  else (Raise (Error e), State fs [EvImport "dm2xcod"] p).
Proof.
  intros Hm. enter_main. split_cases.
Qed.

(** No argument after the script name. *)
Lemma main_usage p w convert_docx fs :
  w_dm2xcod w = inr convert_docx → w_args w = [] →
  main w (State fs [] p) =
  match stdout_refuses p (usage_line (w_script w)) with
  | None =>
      (Raise (SystemExit 1),
       State fs [EvImport "dm2xcod"; EvPrint (usage_line (w_script w))] p)
  | Some e' => (Raise (Error e'), State fs [EvImport "dm2xcod"] p)
  end.
Proof.
  intros Hm Ha. enter_main. split_cases.
Qed.

(** Standard output refuses the progress line. *)
Lemma main_progress_refused p w convert_docx inp rest fs e :
  w_dm2xcod w = inr convert_docx → w_args w = inp :: rest →
  stdout_refuses p (reading_line inp) = Some e →
  main w (State fs [] p) = caught e (State fs [EvImport "dm2xcod"] p).
Proof.
  intros Hm Ha Hp. enter_main.
  destruct rest; enter_main; split_cases.
Qed.

(** The input file cannot be read. *)
Lemma main_read_error p w convert_docx inp rest fs e :
  w_dm2xcod w = inr convert_docx → w_args w = inp :: rest →
  stdout_refuses p (reading_line inp) = None →
  read_file fs inp = inl e →
  main w (State fs [] p) =
  caught e (State fs [EvImport "dm2xcod"; EvPrint (reading_line inp);
                      EvOpen inp ReadBinary] p).
Proof.
  intros Hm Ha Hp Hr. enter_main.
  destruct rest; enter_main; split_cases.
Qed.

(** [convert_docx] raises. *)
Lemma main_convert_error p w convert_docx inp rest fs data e :
  w_dm2xcod w = inr convert_docx → w_args w = inp :: rest →
  stdout_refuses p (reading_line inp) = None →
  read_file fs inp = inr data → convert_docx data = inl e →
  main w (State fs [] p) =
  caught e (State fs [EvImport "dm2xcod"; EvPrint (reading_line inp);
                      EvOpen inp ReadBinary; EvRead inp;
                      EvConvertDocx data] p).
Proof.
  intros Hm Ha Hp Hr Hc. enter_main.
  destruct rest; enter_main; split_cases.
Qed.

(** The conversion succeeds and [output_file] is false. *)
Lemma main_print p w convert_docx inp rest fs data markdown :
  w_dm2xcod w = inr convert_docx → w_args w = inp :: rest →
  stdout_refuses p (reading_line inp) = None →
  read_file fs inp = inr data → convert_docx data = inr markdown →
  truthy (head rest) = false →
  main w (State fs [] p) =
  match stdout_refuses p markdown with
  | None =>
      (Return tt,
       State fs [EvImport "dm2xcod"; EvPrint (reading_line inp);
                 EvOpen inp ReadBinary; EvRead inp; EvConvertDocx data;
                 EvPrint markdown] p)
  | Some e =>
      caught e (State fs [EvImport "dm2xcod"; EvPrint (reading_line inp);
                          EvOpen inp ReadBinary; EvRead inp;
                          EvConvertDocx data] p)
  end.
Proof.
  intros Hm Ha Hp Hr Hc Ht. enter_main.
  destruct rest; enter_main; split_cases.
Qed.

(** The conversion succeeds and [output_file] is a non-empty path. *)
Lemma main_write p w convert_docx inp out rest fs data markdown :
  w_dm2xcod w = inr convert_docx → w_args w = inp :: out :: rest →
  stdout_refuses p (reading_line inp) = None →
  read_file fs inp = inr data → convert_docx data = inr markdown →
  out ≠ "" →
  main w (State fs [] p) =
  match fs_open_w fs out with
  | Some e =>
      caught e (State fs [EvImport "dm2xcod"; EvPrint (reading_line inp);
                          EvOpen inp ReadBinary; EvRead inp;
                          EvConvertDocx data; EvOpen out WriteTextUtf8] p)
  | None =>
      match fs_write fs out (written_bytes p markdown) with
      | Some (e, kept) =>
          caught e (State (fs_put out kept (fs_put out [] fs))
                          [EvImport "dm2xcod"; EvPrint (reading_line inp);
                           EvOpen inp ReadBinary; EvRead inp;
                           EvConvertDocx data; EvOpen out WriteTextUtf8;
                           EvWrite out markdown] p)
      | None =>
          match stdout_refuses p (converted_line inp out) with
          | None =>
              (Return tt,
               State (fs_put out (written_bytes p markdown)
                             (fs_put out [] fs))
                     [EvImport "dm2xcod"; EvPrint (reading_line inp);
                      EvOpen inp ReadBinary; EvRead inp; EvConvertDocx data;
                      EvOpen out WriteTextUtf8; EvWrite out markdown;
                      EvPrint (converted_line inp out)] p)
          | Some e =>
              caught e (State (fs_put out (written_bytes p markdown)
                                      (fs_put out [] fs))
                              [EvImport "dm2xcod"; EvPrint (reading_line inp);
                               EvOpen inp ReadBinary; EvRead inp;
                               EvConvertDocx data; EvOpen out WriteTextUtf8;
                               EvWrite out markdown] p)
          end
      end
  end.
Proof.
  intros Hm Ha Hp Hr Hc Hne. enter_main.
  rewrite bool_decide_false by done. enter_main. split_cases.
Qed.

(** ** Runs on the POSIX platform *)

Lemma run_posix w :
  run w =
  let '(o, s) := main w (State (w_fs w) [] posix_utf8) in
  Result (exit_status o) (stdout_of (st_log s)) (traceback o)
         (st_fs s) (st_log s).
Proof. unfold run, run_in, final_status. by destruct (main w _). Qed.

(** Splits a goal about [run w] into the ways through [main]: the import
    raises, no argument, the input cannot be read, the conversion raises,
    the output cannot be opened, the bytes do not arrive, the text is
    written, the text is printed; where an error is raised, once for an
    instance of the class the handler catches and once for another. *)
Ltac run_paths w :=
  rewrite ?run_posix;
  let e := fresh "e" in
  let cv := fresh "cv" in
  let inp := fresh "inp" in
  let rest := fresh "rest" in
  let data := fresh "data" in
  let md := fresh "md" in
  let out := fresh "out" in
  let rest' := fresh "rest" in
  let kept := fresh "kept" in
  let Hm := fresh "Hm" in
  let Ha := fresh "Ha" in
  let Hr := fresh "Hr" in
  let Hc := fresh "Hc" in
  let Ht := fresh "Ht" in
  let Hne := fresh "Hne" in
  let Ho := fresh "Ho" in
  let Hw := fresh "Hw" in
  let Hi := fresh "Hi" in
  destruct (w_dm2xcod w) as [e|cv] eqn:Hm;
  [ rewrite (main_import_raises _ _ _ _ Hm);
    destruct (isinstance e "ImportError") eqn:Hi
  | destruct (w_args w) as [|inp rest] eqn:Ha;
    [ rewrite (main_usage _ _ _ _ Hm Ha)
    | destruct (read_file (w_fs w) inp) as [e|data] eqn:Hr;
      [ rewrite (main_read_error posix_utf8 _ _ _ _ _ _ Hm Ha eq_refl Hr);
        unfold caught; destruct (isinstance e "Exception") eqn:Hi
      | destruct (cv data) as [e|md] eqn:Hc;
        [ rewrite (main_convert_error posix_utf8 _ _ _ _ _ _ _
                     Hm Ha eq_refl Hr Hc);
          unfold caught; destruct (isinstance e "Exception") eqn:Hi
        | destruct (truthy (head rest)) eqn:Ht;
          [ apply truthy_head_inv in Ht as (out & rest' & -> & Hne);
            rewrite (main_write posix_utf8 _ _ _ _ _ _ _ _
                       Hm Ha eq_refl Hr Hc Hne);
            destruct (fs_open_w (w_fs w) out) as [e|] eqn:Ho;
            [ unfold caught; destruct (isinstance e "Exception") eqn:Hi
            | destruct (fs_write (w_fs w) out (written_bytes posix_utf8 md))
                as [[e kept]|] eqn:Hw;
              [ unfold caught; destruct (isinstance e "Exception") eqn:Hi
              | ] ]
          | rewrite (main_print posix_utf8 _ _ _ _ _ _ _
                       Hm Ha eq_refl Hr Hc Ht) ] ] ] ] ];
  cbn.


(** ** Errors *)

(** C2: when the conversion function raises, the file system is left as it
    was, no file is opened for writing or written, also with an output path
    on the command line; standard output holds the progress line and, for an
    instance of [Exception], the error line, and the run ends with status 1. *)
Theorem failed_conversion_writes_nothing w convert_docx inp rest data e :
  w_dm2xcod w = inr convert_docx → w_args w = inp :: rest →
  read_file (w_fs w) inp = inr data →
  convert_docx data = inl e →
  r_fs (run w) = w_fs w ∧
  write_events (r_log (run w)) = [] ∧
  r_stdout (run w) =
    unlines (reading_line inp ::
             if isinstance e "Exception" then [error_line e] else []) ∧
  r_exit (run w) = 1.
Proof.
  intros Hm Ha Hr Hc. rewrite run_posix.
  rewrite (main_convert_error posix_utf8 _ _ _ _ _ _ _ Hm Ha eq_refl Hr Hc).
  unfold caught. by destruct (isinstance e "Exception").
Qed.

Lemma failed_conversion_writes_nothing_witness :
  r_fs (run (invoke ["broken.docx"; "out.md"])) = sample_fs ∧
  write_events (r_log (run (invoke ["broken.docx"; "out.md"]))) = [] ∧
  r_stdout (run (invoke ["broken.docx"; "out.md"])) =
    unlines (reading_line "broken.docx" ::
             if isinstance (ValueError "Container error: malformed archive")
                           "Exception"
             then [error_line (ValueError "Container error: malformed archive")]
             else []) ∧
  r_exit (run (invoke ["broken.docx"; "out.md"])) = 1.
Proof.
  apply (failed_conversion_writes_nothing
           (invoke ["broken.docx"; "out.md"]) sample_convert
           "broken.docx" ["out.md"] junk
           (ValueError "Container error: malformed archive"));
    reflexivity.
Defined.

(** ** The argument check *)




(** ** The conversion *)





(** ** The output *)






(** ** The command line *)

(** X1: arguments after the second are never looked at: the run is the one of
    the first two alone. *)
Theorem arguments_after_output_ignored script inp out rest dm2xcod fs :
  run (World script (inp :: out :: rest) dm2xcod fs) =
  run (World script [inp; out] dm2xcod fs).
Proof.
  unfold run, run_in, main, sys_argv. cbn [w_script w_args w_fs].
  by rewrite !len_two_more, !len_three_more.
Qed.

(** ** The conversion and the files opened *)

(** X6: [convert_docx] is called at most once in a run, and never on anything
    but the bytes read from the file the first argument names. *)
Theorem at_most_one_conversion w :
  conversions (r_log (run w)) = [] ∨
  ∃ inp rest data,
    w_args w = inp :: rest ∧ read_file (w_fs w) inp = inr data ∧
    conversions (r_log (run w)) = [data].
Proof.
  run_paths w; try (by left); right; by eexists _, _, _.
Qed.

(** X7: whatever the script opens is named on its command line: the first
    argument, for reading, and the second, when it is not empty, for
    writing.  It opens nothing else. *)
Theorem opens_only_named_paths w path mode :
  EvOpen path mode ∈ r_log (run w) →
  (mode = ReadBinary ∧ w_args w !! 0%nat = Some path) ∨
  (mode = WriteTextUtf8 ∧ w_args w !! 1%nat = Some path ∧ path ≠ "").
Proof.
  run_paths w; intros H;
    repeat (apply elem_of_cons in H as [H|H]; [simplify_eq|]);
    try (by apply elem_of_nil in H); try (by left); by right.
Qed.

Lemma opens_only_named_paths_witness :
  (WriteTextUtf8 = ReadBinary ∧
   w_args (invoke ["in.docx"; "out.md"]) !! 0%nat = Some "out.md") ∨
  (WriteTextUtf8 = WriteTextUtf8 ∧
   w_args (invoke ["in.docx"; "out.md"]) !! 1%nat = Some "out.md" ∧
   "out.md" ≠ "").
Proof.
  apply (opens_only_named_paths (invoke ["in.docx"; "out.md"])).
  vm_compute. do 5 right. left.
Defined.

(** ** Standard output *)



(** * The script on any platform *)

(** Splits like [split_cases], and leaves the cases to the caller. *)
Ltac split_only :=
  use_hyps;
  repeat (match goal with
          | |- context [match ?x with _ => _ end] =>
              lazymatch x with
              | context [match _ with _ => _ end] => fail
              | _ => tryif is_var x then destruct x else destruct x eqn:?
              end
          end; use_hyps).

(** ** Errors in the [try] block *)

(** C1, as stated, fails for an error outside [Exception] and on a standard
    output that cannot take the report: a panic of the converter is not
    caught by [except Exception], so the script prints the progress line and
    nothing else, and the interpreter reports the exception; on an ASCII
    stream the handler's own [print] raises, and again no error line is
    printed. *)
Lemma error_not_always_reported :
  (sample_convert [] = inl (PanicException "empty input") ∧
   r_stdout (run (invoke ["empty.docx"])) =
     "Reading 'empty.docx' as bytes..." +:+ LF ∧
   r_traceback (run (invoke ["empty.docx"])) =
     Some (PanicException "empty input")) ∧
  (sample_convert junk = inl (ValueError "Container error: malformed archive") ∧
   r_stdout (run_in ascii_stdout (invoke ["broken.docx"])) =
     "Reading 'broken.docx' as bytes..." +:+ LF ∧
   r_traceback (run_in ascii_stdout (invoke ["broken.docx"])) =
     Some (UnicodeEncodeError "ascii")).
Proof. by vm_compute. Qed.

(** C1, amended: when an error that is an instance of [Exception] is raised
    while reading the input file, converting it, or opening or writing the
    output, and standard output takes the progress line and the error line
    and is flushed at exit, the script prints, after the progress line, the
    line made of a cross mark, "Error: " and the text of the error, and
    exits with status 1; nothing is left for the interpreter to report. *)
Theorem error_is_reported_with_exit_1 p w inp e :
  try_error p w inp e →
  isinstance e "Exception" = true →
  stdout_refuses p (reading_line inp) = None →
  stdout_refuses p (error_line e) = None →
  stdout_flushes p = true →
  r_stdout (run_in p w) =
    ("Reading '" +:+ inp +:+ "' as bytes...") +:+ LF +:+
    ("❌ Error: " +:+ exc_str e) +:+ LF ∧
  r_exit (run_in p w) = 1 ∧
  r_traceback (run_in p w) = None.
Proof.
  intros Herr Hi Hp1 Hp2 Hf. unfold run_in, final_status.
  destruct Herr as [cv rest e Hm Ha Hr | cv rest data e Hm Ha Hr Hc
                   | cv out rest data md e Hm Ha Hr Hc Hne Ho
                   | cv out rest data md e kept Hm Ha Hr Hc Hne Ho Hw].
  - rewrite (main_read_error p _ _ _ _ _ _ Hm Ha Hp1 Hr).
    unfold_texts. by use_hyps.
  - rewrite (main_convert_error p _ _ _ _ _ _ _ Hm Ha Hp1 Hr Hc).
    unfold_texts. by use_hyps.
  - rewrite (main_write p _ _ _ _ _ _ _ _ Hm Ha Hp1 Hr Hc Hne), Ho.
    unfold_texts. by use_hyps.
  - rewrite (main_write p _ _ _ _ _ _ _ _ Hm Ha Hp1 Hr Hc Hne), Ho, Hw.
    unfold_texts. by use_hyps.
Qed.

Lemma error_is_reported_with_exit_1_witness :
  r_stdout (run_in posix_utf8 (invoke ["broken.docx"; "out.md"])) =
    ("Reading '" +:+ "broken.docx" +:+ "' as bytes...") +:+ LF +:+
    ("❌ Error: " +:+
     exc_str (ValueError "Container error: malformed archive")) +:+ LF ∧
  r_exit (run_in posix_utf8 (invoke ["broken.docx"; "out.md"])) = 1 ∧
  r_traceback (run_in posix_utf8 (invoke ["broken.docx"; "out.md"])) = None.
Proof.
  apply (error_is_reported_with_exit_1 posix_utf8
           (invoke ["broken.docx"; "out.md"]) "broken.docx"
           (ValueError "Container error: malformed archive"));
    try reflexivity.
  apply (error_converting _ _ _ sample_convert ["out.md"] junk); reflexivity.
Defined.

(** An error outside [Exception] is not caught: it leaves [main] with the
    progress line printed and nothing more. *)
Lemma other_exception_leaves_main p w inp e :
  try_error p w inp e →
  isinstance e "Exception" = false →
  stdout_refuses p (reading_line inp) = None →
  r_stdout (run_in p w) = ("Reading '" +:+ inp +:+ "' as bytes...") +:+ LF ∧
  r_traceback (run_in p w) = Some e.
Proof.
  intros Herr Hi Hp1. unfold run_in, final_status.
  destruct Herr as [cv rest e Hm Ha Hr | cv rest data e Hm Ha Hr Hc
                   | cv out rest data md e Hm Ha Hr Hc Hne Ho
                   | cv out rest data md e kept Hm Ha Hr Hc Hne Ho Hw].
  - rewrite (main_read_error p _ _ _ _ _ _ Hm Ha Hp1 Hr).
    unfold_texts. by use_hyps.
  - rewrite (main_convert_error p _ _ _ _ _ _ _ Hm Ha Hp1 Hr Hc).
    unfold_texts. by use_hyps.
  - rewrite (main_write p _ _ _ _ _ _ _ _ Hm Ha Hp1 Hr Hc Hne), Ho.
    unfold_texts. by use_hyps.
  - rewrite (main_write p _ _ _ _ _ _ _ _ Hm Ha Hp1 Hr Hc Hne), Ho, Hw.
    unfold_texts. by use_hyps.
Qed.

(** ** The import *)

(** C9, as stated, fails when the import fails with something else than an
    [ImportError], and on a standard output that cannot take the hint: a
    module whose initialisation raises [RuntimeError] cannot be imported, yet
    no hint is printed and the interpreter reports the exception; on an
    ASCII stream the [print] of the hint raises. *)
Lemma hint_not_always_printed :
  (r_stdout (run (invoke_broken_module ["in.docx"])) = "" ∧
   r_traceback (run (invoke_broken_module ["in.docx"])) =
     Some (RuntimeError "init failed") ∧
   r_exit (run (invoke_broken_module ["in.docx"])) = 1) ∧
  (r_stdout (run_in ascii_stdout (invoke_uninstalled ["in.docx"])) = "" ∧
   r_traceback (run_in ascii_stdout (invoke_uninstalled ["in.docx"])) =
     Some (UnicodeEncodeError "ascii")).
Proof. by vm_compute. Qed.

(** C9, amended: when [import dm2xcod] raises an [ImportError] and standard
    output takes the hint and is flushed at exit, the script prints the line
    "dm2xcod not installed. Install with: pip install dm2xcod" (after its
    cross mark) and exits with status 1; it has done nothing but the import
    and the print, the files are as they were, and the command line and the
    file system have no influence on the run. *)
Theorem missing_module_hint p w e :
  w_dm2xcod w = inl e → isinstance e "ImportError" = true →
  stdout_refuses p
    "❌ dm2xcod not installed. Install with: pip install dm2xcod" = None →
  stdout_flushes p = true →
  r_stdout (run_in p w) =
    "❌ dm2xcod not installed. Install with: pip install dm2xcod" +:+ LF ∧
  r_exit (run_in p w) = 1 ∧
  r_log (run_in p w) =
    [EvImport "dm2xcod";
     EvPrint "❌ dm2xcod not installed. Install with: pip install dm2xcod"] ∧
  r_fs (run_in p w) = w_fs w ∧
  ∀ script args fs,
    r_exit (run_in p (World script args (w_dm2xcod w) fs)) =
      r_exit (run_in p w) ∧
    r_stdout (run_in p (World script args (w_dm2xcod w) fs)) =
      r_stdout (run_in p w) ∧
    r_log (run_in p (World script args (w_dm2xcod w) fs)) =
      r_log (run_in p w).
Proof.
  intros Hm Hi Hp Hf. unfold run_in, final_status.
  rewrite (main_import_raises p _ _ _ Hm).
  unfold_texts. use_hyps. repeat split; try done.
  all: rewrite (main_import_raises p (World _ _ _ _) e) by done.
  all: unfold_texts; by use_hyps.
Qed.

Lemma missing_module_hint_witness :
  r_stdout (run_in posix_utf8 (invoke_uninstalled ["in.docx"])) =
    "❌ dm2xcod not installed. Install with: pip install dm2xcod" +:+ LF ∧
  r_exit (run_in posix_utf8 (invoke_uninstalled ["in.docx"])) = 1 ∧
  r_log (run_in posix_utf8 (invoke_uninstalled ["in.docx"])) =
    [EvImport "dm2xcod";
     EvPrint "❌ dm2xcod not installed. Install with: pip install dm2xcod"] ∧
  r_fs (run_in posix_utf8 (invoke_uninstalled ["in.docx"])) =
    w_fs (invoke_uninstalled ["in.docx"]) ∧
  ∀ script args fs,
    r_exit (run_in posix_utf8
              (World script args
                 (w_dm2xcod (invoke_uninstalled ["in.docx"])) fs)) =
      r_exit (run_in posix_utf8 (invoke_uninstalled ["in.docx"])) ∧
    r_stdout (run_in posix_utf8
                (World script args
                   (w_dm2xcod (invoke_uninstalled ["in.docx"])) fs)) =
      r_stdout (run_in posix_utf8 (invoke_uninstalled ["in.docx"])) ∧
    r_log (run_in posix_utf8
             (World script args
                (w_dm2xcod (invoke_uninstalled ["in.docx"])) fs)) =
      r_log (run_in posix_utf8 (invoke_uninstalled ["in.docx"])).
Proof.
  apply (missing_module_hint posix_utf8 (invoke_uninstalled ["in.docx"])
           (ModuleNotFoundError "dm2xcod")); reflexivity.
Defined.

(** ** The output file *)

(** C4, as stated, fails in four ways: an empty second argument is false in
    [if output_file:], so nothing is written and the text goes to standard
    output with status 0; a directory, or a path in a directory that does
    not exist, makes [open] raise, and the run ends with status 1 and no
    file written; and where the line separator is carriage return and line
    feed, text mode rewrites the line feeds, so the file does not hold the
    returned string byte for byte. *)
Lemma output_path_not_always_written :
  (sample_convert docx = inr sample_markdown ∧
   conversions (r_log (run (invoke ["in.docx"; ""]))) = [docx] ∧
   write_events (r_log (run (invoke ["in.docx"; ""]))) = [] ∧
   r_stdout (run (invoke ["in.docx"; ""])) =
     unlines [reading_line "in.docx"; sample_markdown] ∧
   r_exit (run (invoke ["in.docx"; ""])) = 0) ∧
  (conversions (r_log (run (invoke ["in.docx"; "reports"]))) = [docx] ∧
   fs_read (r_fs (run (invoke ["in.docx"; "reports"]))) "reports" =
     inl (IsADirectoryError "reports") ∧
   r_exit (run (invoke ["in.docx"; "reports"])) = 1) ∧
  (conversions (r_log (run (invoke ["in.docx"; "nodir/out.md"]))) = [docx] ∧
   fs_read (r_fs (run (invoke ["in.docx"; "nodir/out.md"]))) "nodir/out.md" =
     inl (FileNotFoundError "nodir/out.md") ∧
   r_exit (run (invoke ["in.docx"; "nodir/out.md"])) = 1) ∧
  (fs_read (r_fs (run_in crlf_platform (invoke ["in.docx"; "out.md"])))
           "out.md" =
     inr (encode_utf8 ("# Title" +:+ CRLF +:+ "body")) ∧
   encode_utf8 ("# Title" +:+ CRLF +:+ "body") ≠ encode_utf8 sample_markdown).
Proof. by vm_compute. Qed.

(** C4, amended: when a second, non-empty argument is given, the conversion
    succeeds, and that path can be opened for writing and takes the bytes,
    the script writes the returned text there, UTF-8 encoded, with every
    line feed replaced by the line separator of the platform; where that
    separator is the line feed, the file holds exactly the bytes of the
    returned text.  The script has opened that path for writing and written
    the text to it, once. *)
Theorem markdown_written_to_output_path
    p w convert_docx inp out rest data markdown :
  w_dm2xcod w = inr convert_docx → w_args w = inp :: out :: rest →
  stdout_refuses p (reading_line inp) = None →
  read_file (w_fs w) inp = inr data →
  convert_docx data = inr markdown →
  out ≠ "" →
  fs_open_w (w_fs w) out = None →
  fs_write (w_fs w) out (written_bytes p markdown) = None →
  fs_read (r_fs (run_in p w)) out =
    inr (encode_utf8 (translate_newlines (os_linesep p) markdown)) ∧
  (os_linesep p = LF →
   fs_read (r_fs (run_in p w)) out = inr (encode_utf8 markdown)) ∧
  write_events (r_log (run_in p w)) =
    [EvOpen out WriteTextUtf8; EvWrite out markdown].
Proof.
  intros Hm Ha Hp Hr Hc Hne Ho Hw. unfold run_in.
  rewrite (main_write p _ _ _ _ _ _ _ _ Hm Ha Hp Hr Hc Hne), Ho, Hw.
  destruct (stdout_refuses p (converted_line inp out)) as [e|];
    [unfold caught; cbn [st_platform st_fs st_log];
     destruct (isinstance e "Exception");
     [destruct (stdout_refuses p (error_line e))|]|];
    cbn; rewrite fs_read_put; (split; [done|]); (split; [|done]);
    intros HLF; unfold written_bytes; by rewrite HLF, translate_newlines_LF.
Qed.

Lemma markdown_written_to_output_path_witness :
  fs_read (r_fs (run_in posix_utf8 (invoke ["in.docx"; "out.md"]))) "out.md" =
    inr (encode_utf8
           (translate_newlines (os_linesep posix_utf8) sample_markdown)) ∧
  (os_linesep posix_utf8 = LF →
   fs_read (r_fs (run_in posix_utf8 (invoke ["in.docx"; "out.md"]))) "out.md" =
     inr (encode_utf8 sample_markdown)) ∧
  write_events (r_log (run_in posix_utf8 (invoke ["in.docx"; "out.md"]))) =
    [EvOpen "out.md" WriteTextUtf8; EvWrite "out.md" sample_markdown].
Proof.
  apply (markdown_written_to_output_path posix_utf8
           (invoke ["in.docx"; "out.md"]) sample_convert
           "in.docx" "out.md" [] docx sample_markdown);
    try reflexivity.
  discriminate.
Defined.

(** ** The exit status *)









(** ** Determinism *)

(** C6, as stated, fails: two invocations with the same command line, the
    same input bytes and the same conversion function differ when the output
    path can be opened in one file system and is a directory in the other;
    and, on one and the same file system, when standard output is a UTF-8
    stream in one invocation and an ASCII stream in the other, which refuses
    the line that reports the conversion and then the error line. *)
Lemma same_inputs_different_runs :
  (sys_argv (invoke_on sample_fs ["in.docx"; "out.md"]) =
     sys_argv (invoke_on blocked_fs ["in.docx"; "out.md"]) ∧
   w_dm2xcod (invoke_on sample_fs ["in.docx"; "out.md"]) =
     w_dm2xcod (invoke_on blocked_fs ["in.docx"; "out.md"]) ∧
   read_file sample_fs "in.docx" = inr docx ∧
   read_file blocked_fs "in.docx" = inr docx ∧
   r_exit (run (invoke_on sample_fs ["in.docx"; "out.md"])) = 0 ∧
   r_exit (run (invoke_on blocked_fs ["in.docx"; "out.md"])) = 1 ∧
   r_stdout (run (invoke_on sample_fs ["in.docx"; "out.md"])) ≠
     r_stdout (run (invoke_on blocked_fs ["in.docx"; "out.md"])) ∧
   fs_read (r_fs (run (invoke_on sample_fs ["in.docx"; "out.md"]))) "out.md" ≠
     fs_read (r_fs (run (invoke_on blocked_fs ["in.docx"; "out.md"])))
             "out.md") ∧
  (r_exit (run_in posix_utf8 (invoke ["in.docx"; "out.md"])) = 0 ∧
   r_exit (run_in ascii_stdout (invoke ["in.docx"; "out.md"])) = 1 ∧
   r_stdout (run_in posix_utf8 (invoke ["in.docx"; "out.md"])) =
     unlines [reading_line "in.docx"; converted_line "in.docx" "out.md"] ∧
   r_stdout (run_in ascii_stdout (invoke ["in.docx"; "out.md"])) =
     unlines [reading_line "in.docx"] ∧
   r_traceback (run_in ascii_stdout (invoke ["in.docx"; "out.md"])) =
     Some (UnicodeEncodeError "ascii") ∧
   fs_read (r_fs (run_in ascii_stdout (invoke ["in.docx"; "out.md"])))
           "out.md" = inr (encode_utf8 sample_markdown)).
Proof. by vm_compute. Qed.

(** Goes through a concrete log looking for a write; what is left, if
    anything, is the write found. *)
Ltac no_write_logged :=
  let H := fresh "H" in
  intros ? ? H; repeat (apply elem_of_cons in H as [[=]|H]);
  try (by apply elem_of_nil in H).

(** Settles the comparison of two runs that went the same way. *)
Ltac same_way :=
  unfold caught; cbn [st_platform st_fs st_log];
  repeat match goal with
         | |- context [if ?b then _ else _] =>
             lazymatch b with
             | isinstance _ _ => destruct b
             end
         | |- context [match stdout_refuses ?p ?t with _ => _ end] =>
             destruct (stdout_refuses p t)
         end;
  cbn; repeat split; no_write_logged.

(** C6, amended: two invocations on the same platform (the same line
    separator, a standard output that takes and refuses the same texts, a
    flush at exit that succeeds or fails alike), with the same command line,
    the same outcome of importing [dm2xcod] and the same conversion function,
    the same outcome of reading the input path, and the same outcome of
    opening the output path for writing and of writing to it, print the same
    text, end with the same status and the same uncaught exception, do the
    same operations in the same order, and leave the same content in every
    file they wrote. *)
Theorem same_inputs_same_run p w1 w2 :
  sys_argv w1 = sys_argv w2 →
  same_module (w_dm2xcod w1) (w_dm2xcod w2) →
  (∀ inp, w_args w1 !! 0%nat = Some inp →
     read_file (w_fs w1) inp = read_file (w_fs w2) inp) →
  (∀ out, w_args w1 !! 1%nat = Some out →
     fs_open_w (w_fs w1) out = fs_open_w (w_fs w2) out ∧
     ∀ data, fs_write (w_fs w1) out data = fs_write (w_fs w2) out data) →
  r_stdout (run_in p w1) = r_stdout (run_in p w2) ∧
  r_exit (run_in p w1) = r_exit (run_in p w2) ∧
  r_traceback (run_in p w1) = r_traceback (run_in p w2) ∧
  r_log (run_in p w1) = r_log (run_in p w2) ∧
  ∀ path text, EvWrite path text ∈ r_log (run_in p w1) →
    fs_read (r_fs (run_in p w1)) path = fs_read (r_fs (run_in p w2)) path.
Proof.
  intros Hargv Hmod Hread Hopen. unfold run_in.
  injection Hargv as Hs Ha.
  destruct (w_dm2xcod w1) as [e|cv1] eqn:Hm1,
           (w_dm2xcod w2) as [e2|cv2] eqn:Hm2; cbn in Hmod; try done.
  { subst e2.
    rewrite (main_import_raises p _ _ _ Hm1), (main_import_raises p _ _ _ Hm2).
    same_way. }
  destruct (w_args w1) as [|inp rest] eqn:Ha1.
  { symmetry in Ha.
    rewrite (main_usage p _ _ _ Hm1 Ha1), (main_usage p _ _ _ Hm2 Ha), Hs.
    same_way. }
  symmetry in Ha. specialize (Hread inp eq_refl).
  destruct (stdout_refuses p (reading_line inp)) as [e|] eqn:Hp.
  { rewrite (main_progress_refused p _ _ _ _ _ _ Hm1 Ha1 Hp),
            (main_progress_refused p _ _ _ _ _ _ Hm2 Ha Hp).
    same_way. }
  destruct (read_file (w_fs w1) inp) as [e|data] eqn:Hr1; symmetry in Hread.
  { rewrite (main_read_error p _ _ _ _ _ _ Hm1 Ha1 Hp Hr1),
            (main_read_error p _ _ _ _ _ _ Hm2 Ha Hp Hread).
    same_way. }
  pose proof (Hmod data) as Hcv.
  destruct (cv1 data) as [e|md] eqn:Hc1; symmetry in Hcv.
  { rewrite (main_convert_error p _ _ _ _ _ _ _ Hm1 Ha1 Hp Hr1 Hc1),
            (main_convert_error p _ _ _ _ _ _ _ Hm2 Ha Hp Hread Hcv).
    same_way. }
  destruct (truthy (head rest)) eqn:Ht.
  - apply truthy_head_inv in Ht as (out & rest' & -> & Hne).
    destruct (Hopen out eq_refl) as [Ho Hw].
    rewrite (main_write p _ _ _ _ _ _ _ _ Hm1 Ha1 Hp Hr1 Hc1 Hne),
            (main_write p _ _ _ _ _ _ _ _ Hm2 Ha Hp Hread Hcv Hne).
    rewrite <- Ho, <- Hw.
    destruct (fs_open_w (w_fs w1) out); [same_way|].
    destruct (fs_write (w_fs w1) out _) as [[e kept]|];
      same_way; simplify_eq; by rewrite !fs_read_put.
  - rewrite (main_print p _ _ _ _ _ _ _ Hm1 Ha1 Hp Hr1 Hc1 Ht),
            (main_print p _ _ _ _ _ _ _ Hm2 Ha Hp Hread Hcv Ht).
    same_way.
Qed.

(** The same malformed bytes are refused twice with the same report, whatever
    else differs in the two file systems. *)
Lemma same_inputs_same_run_witness :
  r_stdout (run_in posix_utf8 (invoke_on sample_fs ["broken.docx"; "out.md"])) =
    r_stdout (run_in posix_utf8
                (invoke_on crowded_fs ["broken.docx"; "out.md"])) ∧
  r_exit (run_in posix_utf8 (invoke_on sample_fs ["broken.docx"; "out.md"])) =
    r_exit (run_in posix_utf8
              (invoke_on crowded_fs ["broken.docx"; "out.md"])) ∧
  r_traceback
      (run_in posix_utf8 (invoke_on sample_fs ["broken.docx"; "out.md"])) =
    r_traceback
      (run_in posix_utf8 (invoke_on crowded_fs ["broken.docx"; "out.md"])) ∧
  r_log (run_in posix_utf8 (invoke_on sample_fs ["broken.docx"; "out.md"])) =
    r_log (run_in posix_utf8
             (invoke_on crowded_fs ["broken.docx"; "out.md"])) ∧
  ∀ path text,
    EvWrite path text
      ∈ r_log (run_in posix_utf8
                 (invoke_on sample_fs ["broken.docx"; "out.md"])) →
    fs_read (r_fs (run_in posix_utf8
                     (invoke_on sample_fs ["broken.docx"; "out.md"]))) path =
    fs_read (r_fs (run_in posix_utf8
                     (invoke_on crowded_fs ["broken.docx"; "out.md"]))) path.
Proof.
  apply (same_inputs_same_run posix_utf8
           (invoke_on sample_fs ["broken.docx"; "out.md"])
           (invoke_on crowded_fs ["broken.docx"; "out.md"])).
  - reflexivity.
  - intros data. reflexivity.
  - intros inp [= <-]. reflexivity.
  - intros out [= <-]. split; [reflexivity|]. intros data. reflexivity.
Defined.

(** * More about the script *)

Lemma fs_read_put_other path content fs q :
  q ≠ path → fs_alias fs path q = false →
  fs_read (fs_put path content fs) q = fs_read fs q.
Proof.
  intros Hne Hal. unfold fs_put. cbn.
  by rewrite bool_decide_false, Hal.
Qed.

(** Splits a goal about [run_in p w] into the ways through [main] on any
    platform; every print that standard output may refuse and every handler
    that may or may not catch gives two cases. *)
Ltac run_in_paths p w :=
  unfold run_in;
  let e := fresh "e" in
  let cv := fresh "cv" in
  let inp := fresh "inp" in
  let rest := fresh "rest" in
  let data := fresh "data" in
  let md := fresh "md" in
  let out := fresh "out" in
  let rest' := fresh "rest" in
  let kept := fresh "kept" in
  let Hm := fresh "Hm" in
  let Ha := fresh "Ha" in
  let Hp := fresh "Hp" in
  let Hr := fresh "Hr" in
  let Hc := fresh "Hc" in
  let Ht := fresh "Ht" in
  let Hne := fresh "Hne" in
  let Ho := fresh "Ho" in
  let Hw := fresh "Hw" in
  destruct (w_dm2xcod w) as [e|cv] eqn:Hm;
  [ rewrite (main_import_raises p _ _ _ Hm)
  | destruct (w_args w) as [|inp rest] eqn:Ha;
    [ rewrite (main_usage p _ _ _ Hm Ha)
    | destruct (stdout_refuses p (reading_line inp)) as [e|] eqn:Hp;
      [ rewrite (main_progress_refused p _ _ _ _ _ _ Hm Ha Hp)
      | destruct (read_file (w_fs w) inp) as [e|data] eqn:Hr;
        [ rewrite (main_read_error p _ _ _ _ _ _ Hm Ha Hp Hr)
        | destruct (cv data) as [e|md] eqn:Hc;
          [ rewrite (main_convert_error p _ _ _ _ _ _ _ Hm Ha Hp Hr Hc)
          | destruct (truthy (head rest)) eqn:Ht;
            [ apply truthy_head_inv in Ht as (out & rest' & -> & Hne);
              rewrite (main_write p _ _ _ _ _ _ _ _ Hm Ha Hp Hr Hc Hne);
              destruct (fs_open_w (w_fs w) out) as [e|] eqn:Ho;
              [ | destruct (fs_write (w_fs w) out (written_bytes p md))
                    as [[e kept]|] eqn:Hw ]
            | rewrite (main_print p _ _ _ _ _ _ _ Hm Ha Hp Hr Hc Ht) ] ] ] ] ] ];
  unfold caught; cbn [st_platform st_fs st_log];
  repeat match goal with
         | |- context [if ?b then _ else _] =>
             lazymatch b with
             | isinstance _ _ => destruct b eqn:?
             end
         | |- context [match stdout_refuses ?q ?t with _ => _ end] =>
             destruct (stdout_refuses q t) eqn:?
         end;
  cbn [r_exit r_stdout r_traceback r_fs r_log exit_status traceback
       st_platform st_fs st_log app].

(** The script changes no file but the one its second argument names: a
    path that is neither that argument nor another name of the same file
    holds after the run what it held before, whatever the platform and
    however the run ends. *)
Theorem only_output_path_changes p w path :
  (∀ out, w_args w !! 1%nat = Some out →
     path ≠ out ∧ fs_alias (w_fs w) out path = false) →
  fs_read (r_fs (run_in p w)) path = fs_read (w_fs w) path.
Proof.
  intros Hout. run_in_paths p w; try done.
  all: destruct (Hout out eq_refl) as [Hne' Hal].
  all: by rewrite !fs_read_put_other.
Qed.

Lemma only_output_path_changes_witness :
  fs_read (r_fs (run_in posix_utf8 (invoke ["in.docx"; "out.md"]))) "in.docx" =
    fs_read (w_fs (invoke ["in.docx"; "out.md"])) "in.docx".
Proof.
  apply (only_output_path_changes posix_utf8 (invoke ["in.docx"; "out.md"])
           "in.docx").
  intros out [= <-]. split; [discriminate|reflexivity].
Defined.

(** The proviso on names is needed: given its input file under another
    name as the output path, the script overwrites what it has read. *)
Example output_path_names_input :
  fs_read linked_fs "in.docx" = inr docx ∧
  r_exit (run (invoke_on linked_fs ["in.docx"; "./in.docx"])) = 0 ∧
  fs_read (r_fs (run (invoke_on linked_fs ["in.docx"; "./in.docx"])))
          "in.docx" = inr (encode_utf8 sample_markdown).
Proof. by vm_compute. Qed.

(** A run in which the script writes to no file leaves the file system as it
    was: so it is when the import or the argument check stops the run, when
    the input cannot be read or converted, when there is no output path, and
    when the output path cannot be opened, which is then neither created,
    emptied nor altered. *)
Theorem run_without_write_changes_no_file p w :
  (∀ path text, EvWrite path text ∉ r_log (run_in p w)) →
  r_fs (run_in p w) = w_fs w.
Proof.
  run_in_paths p w; try done.
  all: intros Hno; exfalso; apply (Hno out md); by repeat constructor.
Qed.

Lemma run_without_write_changes_no_file_witness :
  r_fs (run_in posix_utf8 (invoke ["in.docx"; "reports"])) =
    w_fs (invoke ["in.docx"; "reports"]).
Proof.
  apply (run_without_write_changes_no_file posix_utf8
           (invoke ["in.docx"; "reports"])).
  intros path text H. vm_compute in H.
  repeat (apply elem_of_cons in H as [[=]|H]).
  by apply elem_of_nil in H.
Defined.





(** An exception leaves [main] uncaught, for the interpreter to report, only
    if it is an import failure that is not an [ImportError], an error of the
    [try] block (reading, converting, opening or writing) that is not an
    [Exception], or an exception that a [print] to standard output raised:
    the last also inside the two handlers. *)
Theorem traceback_only_for_uncaught_classes p w e :
  r_traceback (run_in p w) = Some e →
  (w_dm2xcod w = inl e ∧ isinstance e "ImportError" = false) ∨
  (∃ inp, try_error p w inp e ∧ isinstance e "Exception" = false) ∨
  (∃ text, stdout_refuses p text = Some e).
Proof.
  run_in_paths p w; intros [= <-] || (intros [=]).
  all: first [ by left
             | by right; right; eauto
             | right; left; eexists; split; [|done];
               by eauto using try_error ].
Qed.

Lemma traceback_only_for_uncaught_classes_witness :
  (w_dm2xcod (invoke ["in.docx"; "out.md"]) =
     inl (UnicodeEncodeError "ascii") ∧
   isinstance (UnicodeEncodeError "ascii") "ImportError" = false) ∨
  (∃ inp, try_error ascii_stdout (invoke ["in.docx"; "out.md"]) inp
            (UnicodeEncodeError "ascii") ∧
          isinstance (UnicodeEncodeError "ascii") "Exception" = false) ∨
  (∃ text, stdout_refuses ascii_stdout text =
             Some (UnicodeEncodeError "ascii")).
Proof.
  apply (traceback_only_for_uncaught_classes ascii_stdout
           (invoke ["in.docx"; "out.md"]) (UnicodeEncodeError "ascii")).
  reflexivity.
Defined.
(** * Properties of the style resolver *)

Module ResolverFacts.
Import Resolver.
Local Open Scope nat_scope.

Section Walk.
Context (styles : gmap string StyleDefinition).

Local Abbreviation up := (parent_of styles).

Lemma parent_of_det a b b' : up a b → up a b' → b = b'.
Proof. intros (sd & ? & ?) (sd' & ? & ?). congruence. Qed.

(** A walk never runs out of steps: the visited styles are distinct
    entries of the table. *)
Lemma walk_total fuel visited id acc :
  visited ⊆ dom styles → size styles < fuel + size visited →
  is_Some (walk fuel styles visited id acc).
Proof.
  revert visited id acc.
  induction fuel as [|fuel IH]; intros visited id acc Hsub Hsize.
  - apply subseteq_size in Hsub. rewrite size_dom in Hsub. lia.
  - cbn. destruct (decide (id ∈ visited)) as [|Hnew]; [done|].
    destruct (styles !! id) as [sd|] eqn:Hsd; [|done].
    destruct (parent sd) as [p|]; [|done].
    apply IH.
    + apply union_subseteq. split; [|done].
      apply singleton_subseteq_l, elem_of_dom. eauto.
    + rewrite size_union by set_solver. rewrite size_singleton. lia.
Qed.

(** A walk that fails names a style that is its own ancestor. *)
Lemma walk_error fuel visited id acc err :
  (∀ v, v ∈ visited → tc up v id) →
  walk fuel styles visited id acc = Some (inl err) →
  ∃ x, err = CyclicStyle x ∧ tc up x x ∧ rtc up id x.
Proof.
  revert visited id acc.
  induction fuel as [|fuel IH]; intros visited id acc Hvis; [done|].
  cbn. destruct (decide (id ∈ visited)) as [Hin|Hnew].
  { intros [= <-]. exists id. eauto using rtc_refl. }
  destruct (styles !! id) as [sd|] eqn:Hsd; [|done].
  destruct (parent sd) as [p|] eqn:Hp; [|done].
  assert (up id p) as Hup by (by exists sd).
  intros Hw. apply IH in Hw as (x & -> & Hx & Hreach).
  - exists x. eauto using rtc_l.
  - intros v [->%elem_of_singleton|Hv]%elem_of_union.
    + by apply tc_once.
    + eapply tc_r; eauto.
Qed.

(** A walk that succeeds has reached a style without a parent in the
    table. *)
Lemma walk_ok fuel visited id acc attrs :
  walk fuel styles visited id acc = Some (inr attrs) →
  ∃ y, rtc up id y ∧ ∀ z, ¬ up y z.
Proof.
  revert visited id acc.
  induction fuel as [|fuel IH]; intros visited id acc; [done|].
  cbn. destruct (decide (id ∈ visited)); [done|].
  destruct (styles !! id) as [sd|] eqn:Hsd.
  - destruct (parent sd) as [p|] eqn:Hp.
    + intros (y & Hy & Hend)%IH. exists y. split; [|done].
      eapply rtc_l; [|done]. by exists sd.
    + intros _. exists id. split; [done|].
      intros z (sd' & ? & ?). congruence.
  - intros _. exists id. split; [done|].
    intros z (sd' & ? & ?). congruence.
Qed.

(** Every style from which a cycle is reached has a parent, and the parent
    reaches the cycle too. *)
Lemma tc_first a b : tc up a b → ∃ z, up a z ∧ rtc up z b.
Proof.
  destruct 1 as [a b Hup|a z b Hup Hz]; eauto using rtc_refl, tc_rtc.
Qed.

Lemma toward_cycle c y :
  tc up c c → rtc up y c → ∃ z, up y z ∧ rtc up z c.
Proof.
  intros Hc Hy. apply rtc_tc in Hy as [->|Hy]; by apply tc_first.
Qed.

Lemma chain_stays start c y :
  tc up c c → rtc up start c → rtc up start y → rtc up y c.
Proof.
  intros Hc Hstart. revert y. apply rtc_ind_r; [done|].
  intros y z Hy Hup IH.
  destruct (toward_cycle c y Hc IH) as (z' & Hup' & Hz').
  by rewrite (parent_of_det _ _ _ Hup Hup').
Qed.

(** The walk from a style whose chain of parents enters a cycle returns
    [CyclicStyle], naming a style on a cycle of that chain. *)
Lemma resolve_style_cyclic start c direct :
  rtc up start c → tc up c c →
  ∃ x, resolve_style styles start direct = Some (inl (CyclicStyle x)) ∧
       tc up x x ∧ rtc up start x.
Proof.
  intros Hstart Hc. unfold resolve_style.
  destruct (walk_total (S (size styles)) ∅ start direct) as [[err|attrs] Hw].
  - set_solver.
  - rewrite size_empty. lia.
  - apply walk_error in Hw as Hx; [|set_solver].
    destruct Hx as (x & -> & Hx). eauto.
  - apply walk_ok in Hw as (y & Hy & Hend).
    destruct (toward_cycle c y Hc (chain_stays _ _ _ Hc Hstart Hy))
      as (z & Hup & _).
    by destruct (Hend z).
Qed.
End Walk.

Section Tree.
Context (styles : gmap string StyleDefinition)
        (numbering : gmap string NumberingDefinition).

Local Abbreviation up := (parent_of styles).

Lemma R_mapM_total {A B} (f : A → R B) l :
  Forall (λ a, is_Some (f a)) l → is_Some (R_mapM f l).
Proof.
  induction 1 as [|a l [[err|b] Ha] _ [[err'|bs] IH]]; cbn;
    rewrite ?Ha; cbn; rewrite ?IH; done.
Qed.

Lemma R_mapM_error {A B} (f : A → R B) l err :
  R_mapM f l = Some (inl err) → ∃ a, a ∈ l ∧ f a = Some (inl err).
Proof.
  induction l as [|a l IH]; [done|]. cbn.
  destruct (f a) as [[err'|b]|] eqn:Ha; cbn; [|  |done].
  - intros [= <-]. exists a. split; [left|done].
  - destruct (R_mapM f l) as [[err'|bs]|]; cbn; [|done..].
    intros [= <-]. destruct IH as (a' & ? & ?); [done|].
    exists a'. split; [by right|done].
Qed.

Lemma R_mapM_ok {A B} (f : A → R B) l bs a :
  R_mapM f l = Some (inr bs) → a ∈ l → ∃ b, f a = Some (inr b).
Proof.
  revert bs. induction l as [|a' l IH]; intros bs; [by intros _ ?%elem_of_nil|].
  cbn. destruct (f a') as [[err'|b]|] eqn:Ha; cbn; [done| |done].
  destruct (R_mapM f l) as [[err'|bs']|]; cbn; [done| |done].
  intros _ [->|Hin]%elem_of_cons; eauto.
Qed.

Lemma resolve_node_unfold inherited kind children :
  resolve_node styles numbering inherited (Node kind children) =
  R_bind (node_attributes styles inherited kind) (λ attrs,
  R_bind (R_mapM (resolve_node styles numbering attrs) children)
         (λ rchildren,
  Some (inr (RNode kind (flatten numbering kind attrs) rchildren)))).
Proof. done. Qed.

Lemma resolve_style_total s direct :
  is_Some (resolve_style styles s direct).
Proof.
  apply walk_total; [set_solver|]. rewrite size_empty. lia.
Qed.

Lemma node_attributes_total inherited kind :
  is_Some (node_attributes styles inherited kind).
Proof.
  destruct kind as [[s|] ?| | | | | | |]; cbn [node_attributes]; try done.
  apply resolve_style_total.
Qed.

Lemma node_attributes_error inherited kind err :
  node_attributes styles inherited kind = Some (inl err) →
  ∃ x, err = CyclicStyle x ∧ tc up x x.
Proof.
  destruct kind as [[s|] ?| | | | | | |]; cbn [node_attributes]; try done.
  unfold resolve_style. intros Hw.
  apply walk_error in Hw as (x & -> & Hx & _); [eauto|set_solver].
Qed.

(** [resolve] returns on every tree and every table, cyclic or not. *)
Lemma resolve_node_total node :
  ∀ inherited, is_Some (resolve_node styles numbering inherited node).
Proof.
  induction node as [kind children IH] using node_ind. intros inherited.
  rewrite resolve_node_unfold.
  destruct (node_attributes_total inherited kind) as [[err|attrs] ->]; cbn;
    [done|].
  destruct (R_mapM_total (resolve_node styles numbering attrs) children)
    as [[err|rs] ->]; cbn; [|done..].
  eapply Forall_impl; [exact IH|]. intros c Hc. apply Hc.
Qed.

(** The only error [resolve] returns is [CyclicStyle], and it names a style
    that is its own ancestor. *)
Lemma resolve_node_error node :
  ∀ inherited err,
    resolve_node styles numbering inherited node = Some (inl err) →
    ∃ x, err = CyclicStyle x ∧ tc up x x.
Proof.
  induction node as [kind children IH] using node_ind. intros inherited err.
  rewrite resolve_node_unfold.
  destruct (node_attributes styles inherited kind) as [[err'|attrs]|] eqn:Ha;
    cbn; [| |done].
  { intros [= <-]. eauto using node_attributes_error. }
  destruct (R_mapM _ children) as [[err'|rs]|] eqn:Hc; cbn; [|done..].
  intros [= <-]. apply R_mapM_error in Hc as (c & Hin & Hc).
  rewrite Forall_forall in IH. eauto.
Qed.

(** When [resolve] succeeds, the walk of every paragraph style succeeded. *)
Lemma resolve_node_ok node :
  ∀ inherited r s,
    resolve_node styles numbering inherited node = Some (inr r) →
    uses_style node s →
    ∃ attrs, resolve_style styles s no_attributes = Some (inr attrs).
Proof.
  induction node as [kind children IH] using node_ind.
  intros inherited r s. rewrite resolve_node_unfold.
  destruct (node_attributes styles inherited kind) as [[err'|attrs]|] eqn:Ha;
    cbn; [done| |done].
  destruct (R_mapM _ children) as [[err'|rs]|] eqn:Hc; cbn; [done| |done].
  intros _ Huse. inversion Huse as [? ? ?|? ? c ? Hin Hbelow]; subst.
  - cbn [node_attributes] in Ha. eauto.
  - destruct (R_mapM_ok _ _ _ _ Hc Hin) as (rc & Hrc).
    rewrite Forall_forall in IH. eauto.
Qed.

(** C7, amended: when a paragraph of the document uses a style whose chain
    of parents enters an inheritance cycle, [resolve] returns, and what it
    returns is the error [CyclicStyle] naming a style that lies on a
    cycle. *)
Theorem cyclic_style_reported tree s c :
  uses_style tree s → rtc up s c → tc up c c →
  ∃ x, resolve tree styles numbering = Some (inl (CyclicStyle x)) ∧
       tc up x x.
Proof.
  intros Huse Hs Hc. unfold resolve.
  destruct (resolve_node_total tree no_attributes) as [[err|r] Hr].
  - destruct (resolve_node_error _ _ _ Hr) as (x & -> & Hx). eauto.
  - destruct (resolve_node_ok _ _ _ _ Hr Huse) as (attrs & Hok).
    destruct (resolve_style_cyclic styles s c no_attributes Hs Hc)
      as (x & Hx & _).
    congruence.
Qed.
End Tree.

Lemma cyclic_table_A_B : parent_of cyclic_table "A" "B".
Proof. by exists (style "A" (Some "B")). Qed.
Lemma cyclic_table_B_A : parent_of cyclic_table "B" "A".
Proof. by exists (style "B" (Some "A")). Qed.
Lemma cyclic_table_C_A : parent_of cyclic_table "C" "A".
Proof. by exists (style "C" (Some "A")). Qed.

(** C7, as stated, fails: the table of the spec's example holds the cycle of
    A and B, yet [resolve] succeeds on a document whose only paragraph is
    styled Normal, since no walk enters the cycle. *)
Lemma cycle_not_always_reported :
  tc (parent_of cyclic_table) "A" "A" ∧
  resolve plain_tree cyclic_table ∅ =
    Some (inr (RNode (Paragraph (Some "Normal") None)
                 {| rf_bold := false; rf_italic := false;
                    rf_heading := None; rf_list := None |}
                 [RNode (Run no_attributes "plain")
                    {| rf_bold := false; rf_italic := false;
                       rf_heading := None; rf_list := None |} []])).
Proof.
  split; [|by vm_compute].
  eapply tc_l; [apply cyclic_table_A_B|apply tc_once, cyclic_table_B_A].
Qed.

Lemma cyclic_style_reported_witness :
  ∃ x, resolve sample_tree cyclic_table ∅ = Some (inl (CyclicStyle x)) ∧
       tc (parent_of cyclic_table) x x.
Proof.
  apply (cyclic_style_reported cyclic_table ∅ sample_tree "C" "A").
  - eapply uses_below; [left|].
    eapply uses_below; [left|].
    eapply uses_below; [right; left|].
    apply uses_here.
  - apply rtc_once, cyclic_table_C_A.
  - eapply tc_l; [apply cyclic_table_A_B|apply tc_once, cyclic_table_B_A].
Defined.

(** The spec's example, run: the walk from C meets A again. *)
Example resolve_sample_tree :
  resolve sample_tree cyclic_table ∅ = Some (inl (CyclicStyle "A")).
Proof. by vm_compute. Qed.

End ResolverFacts.
